(** * FFN: the frustum feature network backbone

    A shallow embedding of [mmdet3d/models/backbones/frustum_feature_net.py]
    (class [FFN]) and the properties of its four pieces of logic:
    constructor selection by name, truncation of the segmentation model,
    filtering of a pretrained state dictionary, and the NaN-masking
    preprocessing step of the forward pass.

    Python objects that are mutated in place (the image batch) live in an
    explicit heap; exceptions are values of [result]; the torch / torchvision
    runtime that the class calls into is an interface ([Torch]). *)

From Stdlib Require Import Floats.SpecFloat.
From stdpp Require Import gmap strings list fin_maps.

Local Open Scope string_scope.
#[local] Set Warnings "-clear-no-such-hyp".

(** ** Exceptions *)

(** The Python exceptions that [FFN] raises itself or lets through.
    [RuntimeError] stands for whatever the tensor runtime raises
    (an unreadable checkpoint, a strict [load_state_dict] mismatch, a
    malformed input shape). *)
Inductive exception : Type :=
  | NotImplementedError
  | KeyError (key : string)
  | IndexError
  | RuntimeError (msg : string).

Inductive result (A : Type) : Type :=
  | Ok (a : A)
  | Raise (e : exception).
Arguments Ok {A} a.
Arguments Raise {A} e.

#[global] Instance result_ret : MRet result := fun _ a => Ok a.
#[global] Instance result_bind : MBind result := fun _ _ f r =>
  match r with
  | Ok a => f a
  | Raise e => Raise e
  end.

Definition raises {A} (r : result A) : Prop := exists e, r = Raise e.
Definition returns {A} (r : result A) : Prop := exists a, r = Ok a.

#[global] Instance exception_eq_dec : EqDecision exception.
Proof. solve_decision. Defined.

(** ** Tensors *)

(** A tensor is its shape and its elements in storage order.  Elements are
    IEEE floats in the constructor form of [SpecFloat]: the only
    operations the module itself performs on elements are the NaN test and
    the store of a zero. *)
Record tensor : Type := Tensor {
  shape : list nat;
  data : list spec_float
}.

#[global] Instance spec_float_eq_dec : EqDecision spec_float.
Proof. solve_decision. Defined.
#[global] Instance tensor_eq_dec : EqDecision tensor.
Proof. solve_decision. Defined.
#[global] Instance tensor_inhabited : Inhabited tensor :=
  populate (Tensor [] []).

Definition float_isnan (v : spec_float) : bool :=
  match v with
  | S754_nan => true
  | _ => false
  end.

Definition float_zero : spec_float := S754_zero false.

(** [torch.isnan(x)]: the boolean mask, one entry per element. *)
Definition isnan (x : tensor) : list bool := float_isnan <$> data x.

(** [x[mask] = v]: the elements selected by the mask are overwritten. *)
Fixpoint masked_store (xs : list spec_float) (mask : list bool)
    (v : spec_float) : list spec_float :=
  match xs, mask with
  | x :: xs', b :: mask' => (if b then v else x) :: masked_store xs' mask' v
  | _, _ => xs
  end.

Definition setitem_mask (x : tensor) (mask : list bool) (v : spec_float)
    : tensor :=
  Tensor (shape x) (masked_store (data x) mask v).

(** What the masked store of a zero does to one element. *)
Definition nan_to_zero (v : spec_float) : spec_float :=
  if float_isnan v then float_zero else v.

(** [t.shape[i]] *)
Definition shape_getitem (t : tensor) (i : nat) : result nat :=
  match shape t !! i with
  | Some n => Ok n
  | None => Raise IndexError
  end.

(** ** Strings *)

(** [sub in s] on Python strings: [sub] occurs in [s] as a substring. *)
Fixpoint str_contains (sub s : string) : bool :=
  String.prefix sub s ||
  match s with
  | EmptyString => false
  | String _ s' => str_contains sub s'
  end.

(** ** State dictionaries *)

Abbreviation state_dict := (gmap string tensor).

(** [d[key]] *)
Definition dict_getitem (d : state_dict) (key : string) : result tensor :=
  match d !! key with
  | Some v => Ok v
  | None => Raise (KeyError key)
  end.

(** [key in d] *)
Definition dict_contains (d : state_dict) (key : string) : bool :=
  bool_decide (is_Some (d !! key)).

(** [d.pop(key)]: the value and the dictionary without the key *)
Definition dict_pop (d : state_dict) (key : string)
    : result (tensor * state_dict) :=
  match d !! key with
  | Some v => Ok (v, delete key d)
  | None => Raise (KeyError key)
  end.

(** [filter_pretrained_dict], first statement (lines 97-100):
    "Removes aux classifier weights if not used". *)
Definition drop_aux_classifier (model_dict pretrained_dict : state_dict)
    : state_dict :=
  if dict_contains pretrained_dict "aux_classifier.0.weight"
     && negb (dict_contains model_dict "aux_classifier.0.weight")
  then filter (fun kv => str_contains "aux_classifier" kv.1 = false)
         pretrained_dict
  else pretrained_dict.

(** [filter_pretrained_dict], second statement (lines 102-107):
    "Removes final conv layer from weights if number of classes are
    different". *)
Definition drop_final_conv (model_dict pretrained_dict : state_dict)
    : result state_dict :=
  w ← dict_getitem model_dict "classifier.4.weight";
  model_num_classes ← shape_getitem w 0;
  w' ← dict_getitem pretrained_dict "classifier.4.weight";
  pretrained_num_classes ← shape_getitem w' 0;
  if negb (model_num_classes =? pretrained_num_classes)%nat then
    p1 ← dict_pop pretrained_dict "classifier.4.weight";
    p2 ← dict_pop p1.2 "classifier.4.bias";
    mret p2.2
  else mret pretrained_dict.

Definition filter_pretrained_dict (model_dict pretrained_dict : state_dict)
    : result state_dict :=
  drop_final_conv model_dict (drop_aux_classifier model_dict pretrained_dict).

(** ** The tensor runtime *)

(** The backbone of a torchvision segmentation model: a ResNet with its
    stages as named submodules. *)
Record ResNet (layer : Type) : Type := {
  conv1 : layer;
  bn1 : layer;
  relu : layer;
  maxpool : layer;
  layer1 : layer;
  layer2 : layer;
  layer3 : layer;
  layer4 : layer
}.
Arguments conv1 {layer} _.
Arguments bn1 {layer} _.
Arguments relu {layer} _.
Arguments maxpool {layer} _.
Arguments layer1 {layer} _.
Arguments layer2 {layer} _.
Arguments layer3 {layer} _.
Arguments layer4 {layer} _.

(** The full DeepLabV3 model: backbone, task head and optional auxiliary
    head. *)
Record DeepLabV3 (layer : Type) : Type := {
  backbone : ResNet layer;
  classifier : layer;
  aux_classifier : option layer
}.
Arguments backbone {layer} _.
Arguments classifier {layer} _.
Arguments aux_classifier {layer} _.

(** What [FFN] uses of torch and torchvision.  A [layer] is an [nn.Module]
    with its weights and buffers; calling one yields its output (or an
    exception) and the module as the call left it.  The two zoo
    constructors take the keyword arguments [pretrained] and
    [pretrained_backbone].  [state_dict_of] is [model.state_dict()].
    [load_state_dict] returns the model with the weights loaded, or the
    exception of a strict load.  [torch_load] reads a checkpoint file. *)
Class Torch : Type := {
  layer : Type;
  call : layer -> tensor -> layer * result tensor;
  deeplabv3_resnet50 : bool -> bool -> DeepLabV3 layer;
  deeplabv3_resnet101 : bool -> bool -> DeepLabV3 layer;
  state_dict_of : DeepLabV3 layer -> state_dict;
  load_state_dict : DeepLabV3 layer -> state_dict -> result (DeepLabV3 layer);
  torch_load : string -> result state_dict
}.

(** ** The module *)

Abbreviation loc := positive.
Abbreviation heap := (gmap loc tensor).

Section FFN.
Context `{T : Torch}.

(** [nn.Sequential.__call__]: every module is called in order on the
    output of the one before; an exception stops the chain. *)
Fixpoint Sequential_call (mods : list layer) (input : tensor)
    : list layer * result tensor :=
  match mods with
  | [] => ([], Ok input)
  | m :: rest =>
      match call m input with
      | (m', Ok out) =>
          let '(rest', r) := Sequential_call rest out in (m' :: rest', r)
      | (m', Raise e) => (m' :: rest, Raise e)
      end
  end.

(** The attributes of an [FFN] instance.  [norm_mean] and [norm_std] are
    constants that no method reads and are left out. *)
Record FFN : Type := {
  pretrained_path : option string;
  pretrained : bool;
  model : list layer
}.

(** The [nn.Sequential] that [get_model] builds from the full model
    (lines 76-82). *)
Definition my_model (model : DeepLabV3 layer) : list layer :=
  [conv1 (backbone model); bn1 (backbone model); relu (backbone model);
   maxpool (backbone model); layer1 (backbone model)].

Definition get_model (path : option string)
    (constructor : bool -> bool -> DeepLabV3 layer)
    : result (list layer) :=
  let model := constructor false true in
  model ←
    match path with
    | Some p =>
        let model_dict := state_dict_of model in
        pretrained_dict ← torch_load p;
        pretrained_dict ← filter_pretrained_dict model_dict pretrained_dict;
        let model_dict := pretrained_dict ∪ model_dict in
        load_state_dict model model_dict
    | None => mret model
    end;
  mret (my_model model).

(** [FFN.__init__] *)
Definition FFN_init (constructor_name : string)
    (pretrained_path : option string) : result FFN :=
  let pretrained := bool_decide (pretrained_path <> None) in
  constructor ←
    (if String.eqb constructor_name "ResNet50" then
       mret deeplabv3_resnet50
     else if String.eqb constructor_name "ResNet101" then
       mret deeplabv3_resnet101
     else Raise NotImplementedError);
  model ← get_model pretrained_path constructor;
  mret {| pretrained_path := pretrained_path;
          pretrained := pretrained;
          model := model |}.

(** The output of calling one module, without the module's next state. *)
Definition apply (l : layer) (x : tensor) : result tensor := (call l x).2.

(** [preprocess]: [images] is a reference to the caller's batch; the
    result is a reference and the heap after the call.  [x = images] binds
    a second name to the same object, and [x[mask] = 0] writes through
    it. *)
Definition preprocess (self : FFN) (images : loc) (h : heap) : loc * heap :=
  let x := images in
  if pretrained self then
    let mask := isnan (h !!! x) in
    (x, alter (fun t => setitem_mask t mask float_zero) x h)
  else (x, h).

(** [forward]: the module and the heap after the call, and the returned
    value or the exception. *)
Definition forward (self : FFN) (images : loc) (h : heap)
    : (FFN * heap) * result tensor :=
  let '(x, h') := preprocess self images h in
  let '(model', features) := Sequential_call (model self) (h' !!! x) in
  ({| pretrained_path := pretrained_path self;
      pretrained := pretrained self;
      model := model' |}, h', features).

End FFN.

(** ** A small runtime to evaluate the module on *)

(** Layers that carry only their name and return their input; a model
    whose state dictionary is a two-class head and one backbone weight;
    checkpoint files. *)
Module Demo.

Definition num (m : positive) : spec_float := S754_finite false m 0.

Definition stage (name : string) : string := name.

Definition net (arch : string) : DeepLabV3 string := {|
  backbone := {|
    conv1 := stage (arch +:+ ".conv1");
    bn1 := stage (arch +:+ ".bn1");
    relu := stage (arch +:+ ".relu");
    maxpool := stage (arch +:+ ".maxpool");
    layer1 := stage (arch +:+ ".layer1");
    layer2 := stage (arch +:+ ".layer2");
    layer3 := stage (arch +:+ ".layer3");
    layer4 := stage (arch +:+ ".layer4")
  |};
  classifier := stage (arch +:+ ".classifier");
  aux_classifier := None
|}.

Definition weight2 : tensor := Tensor [2; 1; 1; 1] [num 1; num 2].
Definition bias2 : tensor := Tensor [2] [num 3; num 4].
Definition weight3 : tensor := Tensor [3; 1; 1; 1] [num 5; num 6; num 7].
Definition bias3 : tensor := Tensor [3] [num 8; num 9; num 10].
Definition aux_weight : tensor := Tensor [1] [num 11].
Definition conv_weight : tensor := Tensor [1] [num 12].

Definition conv_init : tensor := Tensor [1] [num 13].

Definition model_dict : state_dict :=
  {[ "classifier.4.weight" := weight2; "classifier.4.bias" := bias2;
     "backbone.conv1.weight" := conv_init ]}.

(** A checkpoint trained with an auxiliary head and three classes. *)
Definition coco_dict : state_dict :=
  {[ "classifier.4.weight" := weight3; "classifier.4.bias" := bias3;
     "aux_classifier.0.weight" := aux_weight;
     "backbone.conv1.weight" := conv_weight ]}.

(** A checkpoint with the model's own head and a key the model lacks. *)
Definition stale_dict : state_dict :=
  {[ "classifier.4.weight" := weight2; "classifier.4.bias" := bias2;
     "backbone.layer5.weight" := conv_weight ]}.

(** A checkpoint whose final classifier has a weight and no bias. *)
Definition nobias_dict : state_dict :=
  {[ "classifier.4.weight" := weight3 ]}.

(** [torch.load] on the three checkpoint files that exist. *)
Definition load (p : string) : result state_dict :=
  if String.eqb p "coco.pth" then Ok coco_dict
  else if String.eqb p "nobias.pth" then Ok nobias_dict
  else if String.eqb p "empty.pth" then Ok (∅ : state_dict)
  else Raise (RuntimeError "No such file or directory").

(** A strict load that checks the final classifier: its weight must be
    there with the model's shape. *)
Definition load_strict (m : DeepLabV3 string) (d : state_dict)
    : result (DeepLabV3 string) :=
  match d !! "classifier.4.weight" with
  | Some w =>
      if bool_decide (shape w = shape weight2) then Ok m
      else Raise (RuntimeError "size mismatch for classifier.4.weight")
  | None => Raise (RuntimeError "Missing key(s) in state_dict")
  end.

#[export] Instance runtime : Torch := {|
  layer := string;
  call := fun l x => (l, Ok x);
  deeplabv3_resnet50 := fun _ _ => net "resnet50";
  deeplabv3_resnet101 := fun _ _ => net "resnet101";
  state_dict_of := fun _ => model_dict;
  load_state_dict := load_strict;
  torch_load := load
|}.

(** The same runtime with a model whose strict load rejects every
    dictionary. *)
Definition rejecting : Torch := {|
  layer := string;
  call := fun l x => (l, Ok x);
  deeplabv3_resnet50 := fun _ _ => net "resnet50";
  deeplabv3_resnet101 := fun _ _ => net "resnet101";
  state_dict_of := fun _ => model_dict;
  load_state_dict := fun _ _ =>
    Raise (RuntimeError "Error(s) in loading state_dict");
  torch_load := load
|}.

(** A batch of shape (1, 3, 1, 2) with two padded pixels. *)
Definition batch : tensor :=
  Tensor [1; 3; 1; 2] [num 1; S754_nan; num 3; num 4; S754_nan; num 6].

Definition batch_heap : heap := {[ 1%positive := batch ]}.

(** The module that [FFN("ResNet50", "coco.pth")] constructs, and the one
    that [FFN("ResNet101")] constructs. *)
Definition ffn_coco : FFN := {|
  pretrained_path := Some "coco.pth";
  pretrained := true;
  model := my_model (net "resnet50")
|}.

Definition ffn_plain : FFN := {|
  pretrained_path := None;
  pretrained := false;
  model := my_model (net "resnet101")
|}.

End Demo.

(** ** A runtime whose layers keep a buffer *)

(** Every layer carries, beside its name, the number of calls it has
    seen, and a call increments it, as a batch-normalisation layer in
    training mode updates [num_batches_tracked] and its running
    statistics.  The output of a call does not depend on the buffer. *)
Module Counting.

Definition stage (name : string) : string * nat := (name, 0).

Definition net (arch : string) : DeepLabV3 (string * nat) := {|
  backbone := {|
    conv1 := stage (arch +:+ ".conv1");
    bn1 := stage (arch +:+ ".bn1");
    relu := stage (arch +:+ ".relu");
    maxpool := stage (arch +:+ ".maxpool");
    layer1 := stage (arch +:+ ".layer1");
    layer2 := stage (arch +:+ ".layer2");
    layer3 := stage (arch +:+ ".layer3");
    layer4 := stage (arch +:+ ".layer4")
  |};
  classifier := stage (arch +:+ ".classifier");
  aux_classifier := None
|}.

Definition runtime : Torch := {|
  layer := string * nat;
  call := fun l x => ((l.1, S l.2), Ok x);
  deeplabv3_resnet50 := fun _ _ => net "resnet50";
  deeplabv3_resnet101 := fun _ _ => net "resnet101";
  state_dict_of := fun _ => Demo.model_dict;
  load_state_dict := fun m _ => Ok m;
  torch_load := Demo.load
|}.

(** A batch of shape (1, 3, 1, 1) without padded pixels. *)
Definition batch : tensor :=
  Tensor [1; 3; 1; 1] [Demo.num 1; Demo.num 2; Demo.num 3].

Definition batch_heap : heap := {[ 1%positive := batch ]}.


End Counting.

(** * Properties *)

(** ** Strings *)

Lemma append_cons (c : Ascii.ascii) (a b : string) :
  String c a +:+ b = String c (a +:+ b).
Proof. reflexivity. Qed.

Lemma append_nil (b : string) : "" +:+ b = b.
Proof. reflexivity. Qed.

Lemma prefix_spec (a s : string) :
  String.prefix a s = true <-> exists post, s = a +:+ post.
Proof.
  revert s. induction a as [|c a IH]; intros [|d s]; simpl.
  - split; [intros _; by exists "" | done].
  - split; [intros _; by exists (String d s) | done].
  - split; [done | intros [post Hp]; discriminate].
  - setoid_rewrite append_cons.
    destruct (Ascii.ascii_dec c d) as [->|Hne].
    + rewrite IH. split; intros [post Hp]; exists post; congruence.
    + split; [done | intros [post Hp]; congruence].
Qed.

Lemma str_contains_nil (sub : string) :
  str_contains sub "" = String.prefix sub "" || false.
Proof. reflexivity. Qed.

Lemma str_contains_cons (sub : string) (c : Ascii.ascii) (s : string) :
  str_contains sub (String c s)
  = String.prefix sub (String c s) || str_contains sub s.
Proof. reflexivity. Qed.

Lemma str_contains_spec (sub s : string) :
  str_contains sub s = true <-> exists pre post, s = pre +:+ sub +:+ post.
Proof.
  induction s as [|c s IH].
  - rewrite str_contains_nil, orb_false_r, prefix_spec. split.
    + intros [post Hp]. by exists "", post.
    + intros [pre [post Hp]]. destruct pre; [|discriminate]. eauto.
  - rewrite str_contains_cons, orb_true_iff, prefix_spec, IH. split.
    + intros [[post Hp]|[pre [post Hp]]].
      * by exists "", post.
      * exists (String c pre), post. rewrite append_cons. congruence.
    + intros [pre [post Hp]]. destruct pre as [|d pre].
      * left. eauto.
      * right. exists pre, post. rewrite append_cons in Hp. congruence.
Qed.

Lemma str_contains_false (sub s : string) :
  str_contains sub s = false <-> ~ exists pre post, s = pre +:+ sub +:+ post.
Proof. rewrite <- str_contains_spec. by destruct (str_contains sub s). Qed.

(** ** Masking *)

Lemma masked_store_isnan (xs : list spec_float) :
  masked_store xs (float_isnan <$> xs) float_zero = nan_to_zero <$> xs.
Proof. induction xs as [|x xs IH]; csimpl; [done | by rewrite IH]. Qed.

Lemma setitem_mask_isnan (t : tensor) :
  setitem_mask t (isnan t) float_zero = Tensor (shape t) (nan_to_zero <$> data t).
Proof. unfold setitem_mask, isnan. by rewrite masked_store_isnan. Qed.

Lemma nan_to_zero_id_iff (xs : list spec_float) :
  nan_to_zero <$> xs = xs <-> S754_nan ∉ xs.
Proof.
  induction xs as [|x xs IH]; csimpl.
  - split; [intros _; apply not_elem_of_nil | done].
  - rewrite not_elem_of_cons, <- IH. split.
    + intros Heq. injection Heq as Hx Hxs. split; [|done].
      intros <-. discriminate.
    + intros [Hx Hxs]. rewrite Hxs. f_equal. by destruct x.
Qed.

(** ** The auxiliary-classifier step *)

Lemma dict_contains_true (d : state_dict) (key : string) :
  dict_contains d key = true <-> is_Some (d !! key).
Proof. unfold dict_contains. apply bool_decide_eq_true. Qed.

Lemma dict_contains_false (d : state_dict) (key : string) :
  dict_contains d key = false <-> d !! key = None.
Proof.
  unfold dict_contains. rewrite bool_decide_eq_false.
  by rewrite eq_None_not_Some.
Qed.


Lemma drop_aux_classifier_idle (m p : state_dict) :
  p !! "aux_classifier.0.weight" = None
  \/ is_Some (m !! "aux_classifier.0.weight") ->
  drop_aux_classifier m p = p.
Proof.
  intros H. unfold drop_aux_classifier.
  destruct H as [H|H].
  - apply dict_contains_false in H. by rewrite H.
  - apply dict_contains_true in H. rewrite H. by rewrite andb_false_r.
Qed.

Lemma drop_aux_classifier_lookup_other (m p : state_dict) (key : string) :
  str_contains "aux_classifier" key = false ->
  drop_aux_classifier m p !! key = p !! key.
Proof.
  intros Hk. unfold drop_aux_classifier.
  destruct (_ && _); [|done].
  destruct (p !! key) as [v|] eqn:Hv.
  - by apply map_lookup_filter_Some.
  - apply map_lookup_filter_None. by left.
Qed.

Lemma drop_aux_classifier_subseteq (m p : state_dict) :
  drop_aux_classifier m p ⊆ p.
Proof.
  unfold drop_aux_classifier. destruct (_ && _); [|done].
  apply map_filter_subseteq.
Qed.



(** ** The final-classifier step *)

Lemma drop_final_conv_unfold (m p : state_dict) :
  drop_final_conv m p =
  match m !! "classifier.4.weight" with
  | None => Raise (KeyError "classifier.4.weight")
  | Some wm =>
      match shape wm !! 0 with
      | None => Raise IndexError
      | Some a =>
          match p !! "classifier.4.weight" with
          | None => Raise (KeyError "classifier.4.weight")
          | Some wp =>
              match shape wp !! 0 with
              | None => Raise IndexError
              | Some b =>
                  if (a =? b)%nat then Ok p
                  else
                    match p !! "classifier.4.bias" with
                    | Some _ =>
                        Ok (delete "classifier.4.bias"
                              (delete "classifier.4.weight" p))
                    | None => Raise (KeyError "classifier.4.bias")
                    end
              end
          end
      end
  end.
Proof.
  unfold drop_final_conv, dict_getitem, shape_getitem, dict_pop.
  destruct (m !! "classifier.4.weight") as [wm|]; [|done]. simpl.
  destruct (shape wm !! 0) as [a|]; [|done]. simpl.
  destruct (p !! "classifier.4.weight") as [wp|] eqn:Hwp; [|done]. simpl.
  destruct (shape wp !! 0) as [b|]; [|done]. simpl.
  destruct (a =? b)%nat; [done|]. simpl.
  rewrite lookup_delete_ne by done.
  by destruct (p !! "classifier.4.bias").
Qed.

Lemma filter_pretrained_dict_unfold (m p : state_dict) :
  filter_pretrained_dict m p =
  match m !! "classifier.4.weight" with
  | None => Raise (KeyError "classifier.4.weight")
  | Some wm =>
      match shape wm !! 0 with
      | None => Raise IndexError
      | Some a =>
          match p !! "classifier.4.weight" with
          | None => Raise (KeyError "classifier.4.weight")
          | Some wp =>
              match shape wp !! 0 with
              | None => Raise IndexError
              | Some b =>
                  if (a =? b)%nat then Ok (drop_aux_classifier m p)
                  else
                    match p !! "classifier.4.bias" with
                    | Some _ =>
                        Ok (delete "classifier.4.bias"
                              (delete "classifier.4.weight"
                                 (drop_aux_classifier m p)))
                    | None => Raise (KeyError "classifier.4.bias")
                    end
              end
          end
      end
  end.
Proof.
  unfold filter_pretrained_dict. rewrite drop_final_conv_unfold.
  by rewrite !drop_aux_classifier_lookup_other.
Qed.

(** Filtering on the small dictionaries. *)

Lemma filter_coco_dict :
  filter_pretrained_dict Demo.model_dict Demo.coco_dict
  = Ok (delete "classifier.4.bias"
          (delete "classifier.4.weight"
             (drop_aux_classifier Demo.model_dict Demo.coco_dict))).
Proof. rewrite filter_pretrained_dict_unfold. reflexivity. Qed.

Lemma filter_stale_dict :
  filter_pretrained_dict Demo.model_dict Demo.stale_dict = Ok Demo.stale_dict.
Proof.
  rewrite filter_pretrained_dict_unfold.
  rewrite drop_aux_classifier_idle by (left; reflexivity).
  reflexivity.
Qed.

Lemma filter_nobias_dict :
  filter_pretrained_dict Demo.model_dict Demo.nobias_dict
  = Raise (KeyError "classifier.4.bias").
Proof. rewrite filter_pretrained_dict_unfold. reflexivity. Qed.


(** C4, as the code has it.  For two dictionaries that both hold
    "classifier.4.weight" with a first dimension: when the first
    dimensions differ and the pretrained dictionary also holds
    "classifier.4.bias", the final-classifier step returns the pretrained
    dictionary without exactly these two keys, every other entry
    untouched; when they differ and "classifier.4.bias" is absent, the
    step raises KeyError; when they are equal, the step returns the
    dictionary as it is. *)
Theorem drop_final_conv_exact (m p : state_dict) (wm wp : tensor) (a b : nat) :
  m !! "classifier.4.weight" = Some wm ->
  p !! "classifier.4.weight" = Some wp ->
  shape wm !! 0 = Some a ->
  shape wp !! 0 = Some b ->
  (a <> b -> is_Some (p !! "classifier.4.bias") ->
   exists r, drop_final_conv m p = Ok r
     /\ r = delete "classifier.4.bias" (delete "classifier.4.weight" p)
     /\ r !! "classifier.4.weight" = None
     /\ r !! "classifier.4.bias" = None
     /\ forall key : string,
          key <> "classifier.4.weight" -> key <> "classifier.4.bias" ->
          r !! key = p !! key)
  /\ (a <> b -> p !! "classifier.4.bias" = None ->
      drop_final_conv m p = Raise (KeyError "classifier.4.bias"))
  /\ (a = b -> drop_final_conv m p = Ok p).
Proof.
  intros Hm Hp Ha Hb. rewrite drop_final_conv_unfold, Hm, Ha, Hp, Hb.
  split; [|split].
  - intros Hne [wb Hwb]. apply Nat.eqb_neq in Hne. rewrite Hne, Hwb.
    eexists. split; [done|]. split; [done|]. split; [|split].
    + rewrite lookup_delete_ne by done. apply lookup_delete_eq.
    + apply lookup_delete_eq.
    + intros key H1 H2. by rewrite !lookup_delete_ne.
  - intros Hne Hwb. apply Nat.eqb_neq in Hne. by rewrite Hne, Hwb.
  - intros Heq. apply Nat.eqb_eq in Heq. by rewrite Heq.
Qed.

Lemma drop_final_conv_exact_witness :
  (exists r, drop_final_conv Demo.model_dict Demo.coco_dict = Ok r
     /\ r = delete "classifier.4.bias"
              (delete "classifier.4.weight" Demo.coco_dict)
     /\ r !! "classifier.4.weight" = None
     /\ r !! "classifier.4.bias" = None
     /\ forall key : string,
          key <> "classifier.4.weight" -> key <> "classifier.4.bias" ->
          r !! key = Demo.coco_dict !! key)
  /\ drop_final_conv Demo.model_dict Demo.nobias_dict
     = Raise (KeyError "classifier.4.bias")
  /\ drop_final_conv Demo.model_dict Demo.model_dict = Ok Demo.model_dict.
Proof.
  split; [|split].
  - apply (drop_final_conv_exact Demo.model_dict Demo.coco_dict
             Demo.weight2 Demo.weight3 2 3); try reflexivity.
    + lia.
    + exists Demo.bias3. reflexivity.
  - apply (drop_final_conv_exact Demo.model_dict Demo.nobias_dict
             Demo.weight2 Demo.weight3 2 3); try reflexivity.
    lia.
  - apply (drop_final_conv_exact Demo.model_dict Demo.model_dict
             Demo.weight2 Demo.weight2 2 2); reflexivity.
Defined.

(** C4 as stated fails: both dictionaries hold "classifier.4.weight", the
    first dimensions are 2 and 3, and filtering raises KeyError on the
    absent "classifier.4.bias" instead of returning the dictionary without
    the two keys. *)
Lemma drop_final_conv_missing_bias :
  Demo.model_dict !! "classifier.4.weight" = Some Demo.weight2
  /\ Demo.nobias_dict !! "classifier.4.weight" = Some Demo.weight3
  /\ shape Demo.weight2 !! 0 = Some 2
  /\ shape Demo.weight3 !! 0 = Some 3
  /\ drop_final_conv Demo.model_dict Demo.nobias_dict
     = Raise (KeyError "classifier.4.bias")
  /\ filter_pretrained_dict Demo.model_dict Demo.nobias_dict
     = Raise (KeyError "classifier.4.bias")
  /\ ~ (forall (m p : state_dict) (wm wp : tensor) (a b : nat),
          m !! "classifier.4.weight" = Some wm ->
          p !! "classifier.4.weight" = Some wp ->
          shape wm !! 0 = Some a ->
          shape wp !! 0 = Some b ->
          a <> b ->
          drop_final_conv m p
          = Ok (delete "classifier.4.bias" (delete "classifier.4.weight" p))).
Proof.
  assert (Hr : drop_final_conv Demo.model_dict Demo.nobias_dict
               = Raise (KeyError "classifier.4.bias"))
    by (rewrite drop_final_conv_unfold; reflexivity).
  split; [reflexivity|]. split; [reflexivity|]. split; [reflexivity|].
  split; [reflexivity|]. split; [exact Hr|].
  split; [apply filter_nobias_dict|].
  intros H.
  specialize (H Demo.model_dict Demo.nobias_dict Demo.weight2 Demo.weight3
                2 3 eq_refl eq_refl eq_refl eq_refl).
  rewrite Hr in H. assert (Hne : 2 <> 3) by lia.
  specialize (H Hne). discriminate H.
Qed.

(** ** What filtering leaves in the dictionary *)

(** C2, as the code has it.  When filtering returns, every remaining entry
    is an entry of the pretrained dictionary with the same tensor;
    "aux_classifier.0.weight" remains only if the current dictionary
    defines it; "classifier.4.weight" remains only if the current
    dictionary defines it with the same first dimension.  No other key is
    compared with the current dictionary: every entry whose key does not
    contain "aux_classifier" and is neither "classifier.4.weight" nor
    "classifier.4.bias" remains with its tensor, whatever the current
    dictionary holds for that key. *)
Theorem filter_pretrained_dict_remaining (m p r : state_dict) :
  filter_pretrained_dict m p = Ok r ->
  (forall (key : string) (t : tensor), r !! key = Some t -> p !! key = Some t)
  /\ (is_Some (r !! "aux_classifier.0.weight") ->
      is_Some (m !! "aux_classifier.0.weight"))
  /\ (forall t : tensor, r !! "classifier.4.weight" = Some t ->
      exists (t' : tensor) (n : nat),
        m !! "classifier.4.weight" = Some t'
        /\ shape t' !! 0 = Some n /\ shape t !! 0 = Some n)
  /\ (forall key : string,
        (~ exists pre post, key = pre +:+ "aux_classifier" +:+ post) ->
        key <> "classifier.4.weight" ->
        key <> "classifier.4.bias" ->
        r !! key = p !! key).
Proof.
  rewrite filter_pretrained_dict_unfold.
  destruct (m !! "classifier.4.weight") as [wm|] eqn:Hm; [|done].
  destruct (shape wm !! 0) as [a|] eqn:Ha; [|done].
  destruct (p !! "classifier.4.weight") as [wp|] eqn:Hp; [|done].
  destruct (shape wp !! 0) as [b|] eqn:Hb; [|done].
  assert (Hsub : forall (key : string) (t : tensor),
            drop_aux_classifier m p !! key = Some t -> p !! key = Some t).
  { intros key t Ht. eapply lookup_weaken; [exact Ht|].
    apply drop_aux_classifier_subseteq. }
  assert (Haux : is_Some (drop_aux_classifier m p !! "aux_classifier.0.weight")
                 -> is_Some (m !! "aux_classifier.0.weight")).
  { unfold drop_aux_classifier.
    destruct (dict_contains p "aux_classifier.0.weight") eqn:Hcp; simpl.
    - destruct (dict_contains m "aux_classifier.0.weight") eqn:Hcm; simpl.
      + intros _. by apply dict_contains_true.
      + intros [v Hv]. apply map_lookup_filter_Some in Hv as [_ Hv].
        discriminate Hv.
    - apply dict_contains_false in Hcp. rewrite Hcp. by intros [v Hv]. }
  assert (Hkeep : forall key : string,
            (~ exists pre post, key = pre +:+ "aux_classifier" +:+ post) ->
            drop_aux_classifier m p !! key = p !! key).
  { intros key Hk. apply drop_aux_classifier_lookup_other.
    by apply str_contains_false. }
  destruct (a =? b)%nat eqn:Hab.
  - intros [= <-]. apply Nat.eqb_eq in Hab as ->.
    split; [done|]. split; [done|]. split.
    + intros t Ht. apply Hsub in Ht. exists wm, b. naive_solver.
    + intros key Hk _ _. by apply Hkeep.
  - destruct (p !! "classifier.4.bias") as [wb|]; [|done]. intros [= <-].
    split; [|split; [|split]].
    + intros key t Ht.
      apply lookup_delete_Some in Ht as [_ Ht].
      apply lookup_delete_Some in Ht as [_ Ht]. by apply Hsub.
    + intros [v Hv]. apply Haux. exists v.
      apply lookup_delete_Some in Hv as [_ Hv].
      by apply lookup_delete_Some in Hv as [_ Hv].
    + intros t Ht. rewrite lookup_delete_ne in Ht by done.
      by rewrite lookup_delete_eq in Ht.
    + intros key Hk HW HB. rewrite !lookup_delete_ne by done.
      by apply Hkeep.
Qed.

Lemma filter_pretrained_dict_remaining_witness :
  filter_pretrained_dict Demo.model_dict Demo.coco_dict
  = Ok (delete "classifier.4.bias"
          (delete "classifier.4.weight"
             (drop_aux_classifier Demo.model_dict Demo.coco_dict)))
  /\ Demo.coco_dict !! "backbone.conv1.weight" = Some Demo.conv_weight
  /\ delete "classifier.4.bias"
       (delete "classifier.4.weight"
          (drop_aux_classifier Demo.model_dict Demo.coco_dict))
       !! "backbone.conv1.weight" = Some Demo.conv_weight.
Proof.
  split; [exact filter_coco_dict|].
  destruct (filter_pretrained_dict_remaining Demo.model_dict Demo.coco_dict
              _ filter_coco_dict) as (Hsub & _ & _ & Hkeep).
  assert (Hconv : delete "classifier.4.bias"
                    (delete "classifier.4.weight"
                       (drop_aux_classifier Demo.model_dict Demo.coco_dict))
                    !! "backbone.conv1.weight" = Some Demo.conv_weight).
  { rewrite Hkeep; [reflexivity | | discriminate | discriminate].
    apply str_contains_false. reflexivity. }
  split; [|exact Hconv]. apply Hsub. exact Hconv.
Defined.

(** C2 as stated fails: filtering returns a dictionary that still holds
    "backbone.layer5.weight", a key the current dictionary does not
    define. *)
Lemma filter_pretrained_dict_keeps_unknown_key :
  ~ (forall m p r : state_dict,
       filter_pretrained_dict m p = Ok r ->
       forall (key : string) (t : tensor),
         r !! key = Some t ->
         exists t' : tensor, m !! key = Some t' /\ shape t' = shape t).
Proof.
  intros H.
  destruct (H _ _ _ filter_stale_dict
              "backbone.layer5.weight" Demo.conv_weight eq_refl)
    as [t' [Ht' _]].
  discriminate Ht'.
Qed.

(** ** Construction *)

Section Construction.
Context `{T : Torch}.

Lemma get_model_None (constructor : bool -> bool -> DeepLabV3 layer) :
  get_model None constructor = Ok (my_model (constructor false true)).
Proof. reflexivity. Qed.

Lemma get_model_Some (p : string)
    (constructor : bool -> bool -> DeepLabV3 layer) :
  get_model (Some p) constructor =
  match torch_load p with
  | Raise e => Raise e
  | Ok pd =>
      match filter_pretrained_dict
              (state_dict_of (constructor false true)) pd with
      | Raise e => Raise e
      | Ok fd =>
          match load_state_dict (constructor false true)
                  (fd ∪ state_dict_of (constructor false true)) with
          | Raise e => Raise e
          | Ok m => Ok (my_model m)
          end
      end
  end.
Proof.
  unfold get_model. simpl.
  destruct (torch_load p) as [pd|e]; [|done]. simpl.
  destruct (filter_pretrained_dict _ pd) as [fd|e]; [|done]. simpl.
  by destruct (load_state_dict _ _).
Qed.

Lemma get_model_Some_Ok (p : string)
    (constructor : bool -> bool -> DeepLabV3 layer)
    (pd fd : state_dict) (m : DeepLabV3 layer) :
  torch_load p = Ok pd ->
  filter_pretrained_dict (state_dict_of (constructor false true)) pd = Ok fd ->
  load_state_dict (constructor false true)
    (fd ∪ state_dict_of (constructor false true)) = Ok m ->
  get_model (Some p) constructor = Ok (my_model m).
Proof. intros Hpd Hfd Hm. by rewrite get_model_Some, Hpd, Hfd, Hm. Qed.


Lemma get_model_Ok (path : option string)
    (constructor : bool -> bool -> DeepLabV3 layer) (l : list layer) :
  get_model path constructor = Ok l -> exists m, l = my_model m.
Proof.
  destruct path as [p|].
  - rewrite get_model_Some.
    destruct (torch_load p) as [pd|e]; [|done].
    destruct (filter_pretrained_dict _ pd) as [fd|e]; [|done].
    destruct (load_state_dict _ _) as [m|e]; [|done].
    intros [= <-]. by exists m.
  - rewrite get_model_None. intros [= <-]. eauto.
Qed.

Lemma FFN_init_ResNet50 (path : option string) :
  FFN_init "ResNet50" path =
  match get_model path deeplabv3_resnet50 with
  | Ok l => Ok {| pretrained_path := path;
                  pretrained := bool_decide (path <> None);
                  model := l |}
  | Raise e => Raise e
  end.
Proof. unfold FFN_init. simpl. by destruct (get_model _ _). Qed.

Lemma FFN_init_ResNet101 (path : option string) :
  FFN_init "ResNet101" path =
  match get_model path deeplabv3_resnet101 with
  | Ok l => Ok {| pretrained_path := path;
                  pretrained := bool_decide (path <> None);
                  model := l |}
  | Raise e => Raise e
  end.
Proof. unfold FFN_init. simpl. by destruct (get_model _ _). Qed.

Lemma FFN_init_other (name : string) (path : option string) :
  name <> "ResNet50" -> name <> "ResNet101" ->
  FFN_init name path = Raise NotImplementedError.
Proof.
  intros H50 H101. unfold FFN_init.
  apply String.eqb_neq in H50, H101. by rewrite H50, H101.
Qed.

Lemma FFN_init_Ok (name : string) (path : option string) (self : FFN) :
  FFN_init name path = Ok self ->
  (name = "ResNet50" \/ name = "ResNet101")
  /\ pretrained_path self = path
  /\ pretrained self = bool_decide (path <> None)
  /\ exists m, model self = my_model m.
Proof.
  intros Hinit.
  destruct (decide (name = "ResNet50")) as [->|H50].
  - rewrite FFN_init_ResNet50 in Hinit.
    destruct (get_model _ _) as [l|e] eqn:Hl; [|discriminate Hinit].
    apply get_model_Ok in Hl. simplify_eq. naive_solver.
  - destruct (decide (name = "ResNet101")) as [->|H101].
    + rewrite FFN_init_ResNet101 in Hinit.
      destruct (get_model _ _) as [l|e] eqn:Hl; [|discriminate Hinit].
      apply get_model_Ok in Hl. simplify_eq. naive_solver.
    + by rewrite FFN_init_other in Hinit.
Qed.

(** C6. Construction accepts exactly the names "ResNet50" and
    "ResNet101": with any other name it raises NotImplementedError (the
    constructor's own error for an unsupported name), whatever the
    pretrained path; with one of the two names the name check passes,
    construction goes on to build the model with the matching zoo
    constructor, and with no pretrained path it returns a module. *)
Theorem FFN_init_constructor_name (name : string) (path : option string) :
  (name <> "ResNet50" -> name <> "ResNet101" ->
   FFN_init name path = Raise NotImplementedError)
  /\ (name = "ResNet50" ->
      FFN_init name path =
      (l ← get_model path deeplabv3_resnet50;
       mret {| pretrained_path := path;
               pretrained := bool_decide (path <> None);
               model := l |}))
  /\ (name = "ResNet101" ->
      FFN_init name path =
      (l ← get_model path deeplabv3_resnet101;
       mret {| pretrained_path := path;
               pretrained := bool_decide (path <> None);
               model := l |}))
  /\ (name = "ResNet50" \/ name = "ResNet101" ->
      returns (FFN_init name None)).
Proof.
  split; [apply FFN_init_other|]. split; [|split].
  - intros ->. reflexivity.
  - intros ->. reflexivity.
  - intros [->| ->].
    + rewrite FFN_init_ResNet50, get_model_None. by eexists.
    + rewrite FFN_init_ResNet101, get_model_None. by eexists.
Qed.

(** C5, as the code has it.  Filtering raises exactly when
    "classifier.4.weight" is absent from one of the two dictionaries, or
    one of the two weights has no dimension, or the first dimensions
    differ and the pretrained dictionary has no "classifier.4.bias"; the
    exception is KeyError on "classifier.4.weight" exactly when the
    current dictionary lacks the key, or holds it with a first dimension
    and the pretrained dictionary lacks it; and an exception of filtering
    is the exception of construction. *)
Theorem filter_pretrained_dict_raises (m p : state_dict) :
  (raises (filter_pretrained_dict m p) <->
   m !! "classifier.4.weight" = None
   \/ p !! "classifier.4.weight" = None
   \/ (exists wm, m !! "classifier.4.weight" = Some wm /\ shape wm = [])
   \/ (exists wp, p !! "classifier.4.weight" = Some wp /\ shape wp = [])
   \/ (exists wm wp a b,
         m !! "classifier.4.weight" = Some wm
         /\ p !! "classifier.4.weight" = Some wp
         /\ shape wm !! 0 = Some a /\ shape wp !! 0 = Some b
         /\ a <> b /\ p !! "classifier.4.bias" = None))
  /\ (filter_pretrained_dict m p = Raise (KeyError "classifier.4.weight") <->
      m !! "classifier.4.weight" = None
      \/ (exists wm a, m !! "classifier.4.weight" = Some wm
            /\ shape wm !! 0 = Some a
            /\ p !! "classifier.4.weight" = None))
  /\ (forall (name path : string) (e : exception),
        name = "ResNet50" \/ name = "ResNet101" ->
        torch_load path = Ok p ->
        (name = "ResNet50" ->
         m = state_dict_of (deeplabv3_resnet50 false true)) ->
        (name = "ResNet101" ->
         m = state_dict_of (deeplabv3_resnet101 false true)) ->
        filter_pretrained_dict m p = Raise e ->
        FFN_init name (Some path) = Raise e).
Proof.
  split; [|split].
  - rewrite filter_pretrained_dict_unfold. unfold raises.
    assert (Hnil : forall t : tensor, shape t = [] <-> shape t !! 0 = None).
    { intros t. by destruct (shape t). }
    destruct (m !! "classifier.4.weight") as [wm|] eqn:Hm;
      [|split; [by left | by eexists]].
    destruct (shape wm !! 0) as [a|] eqn:Ha.
    2:{ split; [|by eexists]. intros _. right. right. left.
        exists wm. by rewrite Hnil. }
    destruct (p !! "classifier.4.weight") as [wp|] eqn:Hp;
      [|split; [by right; left | by eexists]].
    destruct (shape wp !! 0) as [b|] eqn:Hb.
    2:{ split; [|by eexists]. intros _. do 3 right. left.
        exists wp. by rewrite Hnil. }
    destruct (a =? b)%nat eqn:Hab.
    { apply Nat.eqb_eq in Hab as ->. split; [by intros [e He]|].
      setoid_rewrite Hnil. naive_solver. }
    apply Nat.eqb_neq in Hab.
    destruct (p !! "classifier.4.bias") as [wb|] eqn:Hwb.
    { split; [by intros [e He]|]. setoid_rewrite Hnil. naive_solver. }
    split; [|by eexists]. intros _. do 4 right. by exists wm, wp, a, b.
  - rewrite filter_pretrained_dict_unfold.
    destruct (m !! "classifier.4.weight") as [wm|] eqn:Hm;
      [|split; [by left | done]].
    destruct (shape wm !! 0) as [a|] eqn:Ha.
    2:{ split; [done|]. intros [?|(wm' & a' & ? & ? & ?)]; simplify_eq. }
    destruct (p !! "classifier.4.weight") as [wp|] eqn:Hp.
    2:{ split; [|done]. intros _. right. by exists wm, a. }
    split.
    + destruct (shape wp !! 0) as [b|]; [|done].
      destruct (a =? b)%nat; [done|].
      by destruct (p !! "classifier.4.bias").
    + intros [?|(wm' & a' & ? & ? & ?)]; simplify_eq.
  - intros name path e Hname Hload H50 H101 Hf.
    destruct Hname as [->| ->].
    + rewrite FFN_init_ResNet50, get_model_Some, Hload.
      rewrite <- (H50 eq_refl). by rewrite Hf.
    + rewrite FFN_init_ResNet101, get_model_Some, Hload.
      rewrite <- (H101 eq_refl). by rewrite Hf.
Qed.

End Construction.

(** Construction on the small runtime. *)

Lemma load_strict_head (m : DeepLabV3 string) (d : state_dict) (w : tensor) :
  d !! "classifier.4.weight" = Some w ->
  shape w = shape Demo.weight2 ->
  Demo.load_strict m d = Ok m.
Proof.
  intros Hw Hs. unfold Demo.load_strict. rewrite Hw.
  by rewrite bool_decide_eq_true_2.
Qed.

Lemma init_coco :
  FFN_init (T := Demo.runtime) "ResNet50" (Some "coco.pth")
  = Ok Demo.ffn_coco.
Proof.
  rewrite FFN_init_ResNet50.
  rewrite (get_model_Some_Ok (T := Demo.runtime) "coco.pth" _ Demo.coco_dict
             (delete "classifier.4.bias"
                (delete "classifier.4.weight"
                   (drop_aux_classifier Demo.model_dict Demo.coco_dict)))
             (Demo.net "resnet50")).
  - reflexivity.
  - reflexivity.
  - exact filter_coco_dict.
  - apply (load_strict_head _ _ Demo.weight2); [|reflexivity].
    rewrite lookup_union_r.
    + reflexivity.
    + rewrite lookup_delete_ne by done. apply lookup_delete_eq.
Qed.


Lemma init_plain :
  FFN_init (T := Demo.runtime) "ResNet101" None = Ok Demo.ffn_plain.
Proof. rewrite FFN_init_ResNet101, get_model_None. reflexivity. Qed.

Lemma FFN_init_constructor_name_witness :
  FFN_init (T := Demo.runtime) "ResNet18" (Some "coco.pth")
  = Raise NotImplementedError
  /\ returns (FFN_init (T := Demo.runtime) "ResNet101" None).
Proof.
  split.
  - apply (FFN_init_constructor_name (T := Demo.runtime)
             "ResNet18" (Some "coco.pth")); discriminate.
  - apply (FFN_init_constructor_name (T := Demo.runtime) "ResNet101" None).
    right. reflexivity.
Defined.

Lemma filter_pretrained_dict_raises_witness :
  raises (filter_pretrained_dict Demo.model_dict Demo.nobias_dict)
  /\ filter_pretrained_dict Demo.model_dict ∅
     = Raise (KeyError "classifier.4.weight")
  /\ FFN_init (T := Demo.runtime) "ResNet50" (Some "nobias.pth")
     = Raise (KeyError "classifier.4.bias").
Proof.
  split; [|split].
  - apply (filter_pretrained_dict_raises (T := Demo.runtime)
             Demo.model_dict Demo.nobias_dict).
    do 4 right. exists Demo.weight2, Demo.weight3, 2, 3.
    split; [reflexivity|]. split; [reflexivity|]. split; [reflexivity|].
    split; [reflexivity|]. split; [lia | reflexivity].
  - apply (filter_pretrained_dict_raises (T := Demo.runtime)
             Demo.model_dict ∅).
    right. exists Demo.weight2, 2.
    split; [reflexivity|]. split; reflexivity.
  - destruct (filter_pretrained_dict_raises (T := Demo.runtime)
                Demo.model_dict Demo.nobias_dict) as (_ & _ & Hinit).
    apply (Hinit "ResNet50" "nobias.pth").
    + left. reflexivity.
    + reflexivity.
    + intros _. reflexivity.
    + discriminate.
    + apply filter_nobias_dict.
Defined.

(** C5 as stated fails: "classifier.4.weight", the one key the comparison
    reads, is present in both dictionaries, and filtering still raises (on
    the absent "classifier.4.bias"). *)
Lemma filter_pretrained_dict_raises_with_both_weights :
  ~ (forall m p : state_dict,
       raises (filter_pretrained_dict m p) <->
       m !! "classifier.4.weight" = None
       \/ p !! "classifier.4.weight" = None).
Proof.
  intros H.
  assert (Hr : raises (filter_pretrained_dict Demo.model_dict Demo.nobias_dict))
    by (eexists; apply filter_nobias_dict).
  apply H in Hr. destruct Hr as [Hr|Hr]; discriminate Hr.
Qed.

Section Truncation.
Context `{T : Torch}.

Lemma FFN_init_selected (name : string) (path : option string)
    (constructor : bool -> bool -> DeepLabV3 layer) :
  (name = "ResNet50" /\ constructor = deeplabv3_resnet50)
  \/ (name = "ResNet101" /\ constructor = deeplabv3_resnet101) ->
  FFN_init name path =
  match get_model path constructor with
  | Ok l => Ok {| pretrained_path := path;
                  pretrained := bool_decide (path <> None);
                  model := l |}
  | Raise e => Raise e
  end.
Proof.
  intros [[-> ->]|[-> ->]];
    [apply FFN_init_ResNet50 | apply FFN_init_ResNet101].
Qed.


End Truncation.



(** ** The forward pass *)

Section Forward.
Context `{T : Torch}.

Lemma preprocess_fst (self : FFN) (images : loc) (h : heap) :
  (preprocess self images h).1 = images.
Proof. unfold preprocess. by destruct (pretrained self). Qed.

Lemma preprocess_plain (self : FFN) (images : loc) (h : heap) :
  pretrained self = false -> preprocess self images h = (images, h).
Proof. intros Hp. unfold preprocess. by rewrite Hp. Qed.

Lemma preprocess_pretrained (self : FFN) (images : loc) (h : heap)
    (t : tensor) :
  pretrained self = true ->
  h !! images = Some t ->
  preprocess self images h
  = (images, <[images := setitem_mask t (isnan t) float_zero]> h).
Proof.
  intros Hp Ht. unfold preprocess. rewrite Hp. f_equal.
  rewrite (lookup_total_correct _ _ _ Ht).
  apply map_eq. intros j. rewrite lookup_alter, lookup_insert.
  case_decide; [|done]. subst j. by rewrite Ht.
Qed.

Lemma bind_Ok {A B : Type} (a : A) (f : A -> result B) : Ok a ≫= f = f a.
Proof. reflexivity. Qed.

Lemma Sequential_call_cons_snd (l : layer) (ls : list layer) (x : tensor) :
  (Sequential_call (l :: ls) x).2
  = apply l x ≫= fun y => (Sequential_call ls y).2.
Proof.
  unfold apply. simpl. destruct (call l x) as [l' [y|e]]; simpl; [|done].
  by destruct (Sequential_call ls y).
Qed.

Lemma Sequential_call_fixed (mods : list layer) (x : tensor) :
  (forall (l : layer) (y : tensor), l ∈ mods -> (call l y).1 = l) ->
  (Sequential_call mods x).1 = mods.
Proof.
  revert x. induction mods as [|l ls IH]; intros x Hfix; [done|].
  simpl. pose proof (Hfix l x (list_elem_of_here l ls)) as Hl.
  destruct (call l x) as [l' [y|e]]; simpl in *; subst l'; [|done].
  specialize (IH y (fun l0 y0 Hin => Hfix l0 y0 (list_elem_of_further _ _ _ Hin))).
  destruct (Sequential_call ls y) as [ls' r]. simpl in *. by rewrite IH.
Qed.

Lemma forward_unfold (self : FFN) (images : loc) (h : heap) :
  forward self images h =
  ({| pretrained_path := pretrained_path self;
      pretrained := pretrained self;
      model := (Sequential_call (model self)
                  ((preprocess self images h).2 !!! images)).1 |},
   (preprocess self images h).2,
   (Sequential_call (model self)
      ((preprocess self images h).2 !!! images)).2).
Proof.
  unfold forward. pose proof (preprocess_fst self images h) as Hx.
  destruct (preprocess self images h) as [x h']. simpl in *. subst x.
  by destruct (Sequential_call _ _).
Qed.

(** C1. For a module constructed with a pretrained path, preprocessing a
    batch (of any number of dimensions, four in particular) leaves its
    shape and its number of elements as they are, stores zero at every
    position that held not-a-number and leaves every other position
    unchanged; for a module constructed without a pretrained path the
    batch and the whole heap pass through unmodified, not-a-number values
    included. *)
Theorem preprocess_masks_nan (name : string) (path : option string)
    (self : FFN) (images : loc) (h : heap) (t : tensor) :
  FFN_init name path = Ok self ->
  h !! images = Some t ->
  length (shape t) = 4 ->
  (path <> None ->
   exists t' : tensor,
     (preprocess self images h).2 !! (preprocess self images h).1 = Some t'
     /\ shape t' = shape t
     /\ length (data t') = length (data t)
     /\ forall (i : nat) (v : spec_float),
          data t !! i = Some v ->
          (float_isnan v = true -> data t' !! i = Some float_zero)
          /\ (float_isnan v = false -> data t' !! i = Some v))
  /\ (path = None ->
      preprocess self images h = (images, h)
      /\ (preprocess self images h).2 !! (preprocess self images h).1
         = Some t).
Proof.
  intros Hinit Ht _. apply FFN_init_Ok in Hinit as (_ & _ & Hp & _).
  split.
  - intros Hpath. rewrite bool_decide_eq_true_2 in Hp by done.
    rewrite (preprocess_pretrained self images h t Hp Ht). simpl.
    rewrite lookup_insert_eq, setitem_mask_isnan.
    eexists. split; [done|]. simpl. split; [done|].
    split; [by rewrite length_fmap|].
    intros i v Hv. rewrite list_lookup_fmap, Hv. simpl.
    unfold nan_to_zero. split; by intros ->.
  - intros ->. rewrite bool_decide_eq_false_2 in Hp by (by intros []).
    by rewrite (preprocess_plain self images h Hp).
Qed.

(** C10. Preprocessing returns the reference it was given; for a module
    constructed with a pretrained path the tensor at that reference is
    overwritten in place with its masked version, no other object of the
    heap changes, the heap that [forward] leaves behind is this heap, and
    when the batch held a not-a-number value the caller's batch after
    [forward] is no longer the tensor that was passed in. *)
Theorem preprocess_in_place (name : string) (path : option string)
    (self : FFN) (images : loc) (h : heap) (t : tensor) :
  FFN_init name path = Ok self ->
  h !! images = Some t ->
  (preprocess self images h).1 = images
  /\ (path <> None ->
      (preprocess self images h).2
      = <[images := setitem_mask t (isnan t) float_zero]> h
      /\ (forall l : loc, l <> images ->
            (preprocess self images h).2 !! l = h !! l)
      /\ (forward self images h).1.2
         = <[images := setitem_mask t (isnan t) float_zero]> h
      /\ (S754_nan ∈ data t ->
          (forward self images h).1.2 !! images <> Some t)).
Proof.
  intros Hinit Ht. split; [apply preprocess_fst|].
  intros Hpath. apply FFN_init_Ok in Hinit as (_ & _ & Hp & _).
  rewrite bool_decide_eq_true_2 in Hp by done.
  rewrite forward_unfold. simpl.
  rewrite (preprocess_pretrained self images h t Hp Ht). simpl.
  split; [done|]. split; [|split; [done|]].
  - intros l Hl. by rewrite lookup_insert_ne.
  - intros Hnan. rewrite lookup_insert_eq, setitem_mask_isnan.
    intros [= Heq]. destruct t as [sh d]. simpl in *.
    injection Heq as Heq. by apply nan_to_zero_id_iff in Heq.
Qed.

(** C8. For a constructed module, what [forward] returns is the result of
    calling, in order, conv1, bn1, relu, maxpool and layer1 of the
    backbone on the preprocessed batch, each on the output of the one
    before: one tensor, or the exception of the first stage that raises.
    The heap it leaves is the one preprocessing left, and the module's
    [pretrained_path] and [pretrained] are as before. *)
Theorem forward_features (name : string) (path : option string)
    (self : FFN) (images : loc) (h : heap) :
  FFN_init name path = Ok self ->
  exists m : DeepLabV3 layer,
    model self = my_model m
    /\ (forward self images h).2
       = (y1 ← apply (conv1 (backbone m))
                 ((preprocess self images h).2
                    !!! (preprocess self images h).1);
          y2 ← apply (bn1 (backbone m)) y1;
          y3 ← apply (relu (backbone m)) y2;
          y4 ← apply (maxpool (backbone m)) y3;
          apply (layer1 (backbone m)) y4)
    /\ (forward self images h).1.2 = (preprocess self images h).2
    /\ pretrained_path (forward self images h).1.1 = pretrained_path self
    /\ pretrained (forward self images h).1.1 = pretrained self.
Proof.
  intros Hinit. apply FFN_init_Ok in Hinit as (_ & _ & _ & m & Hm).
  exists m. split; [done|]. rewrite forward_unfold, preprocess_fst. simpl.
  split; [|done]. rewrite Hm. unfold my_model.
  rewrite Sequential_call_cons_snd.
  destruct (apply (conv1 (backbone m)) _) as [y1|e]; [|reflexivity].
  rewrite !bind_Ok, Sequential_call_cons_snd.
  destruct (apply (bn1 (backbone m)) y1) as [y2|e]; [|reflexivity].
  rewrite !bind_Ok, Sequential_call_cons_snd.
  destruct (apply (relu (backbone m)) y2) as [y3|e]; [|reflexivity].
  rewrite !bind_Ok, Sequential_call_cons_snd.
  destruct (apply (maxpool (backbone m)) y3) as [y4|e]; [|reflexivity].
  rewrite !bind_Ok, Sequential_call_cons_snd.
  by destruct (apply (layer1 (backbone m)) y4).
Qed.


End Forward.

Lemma preprocess_masks_nan_witness :
  (exists t' : tensor,
     (preprocess Demo.ffn_coco 1%positive Demo.batch_heap).2 !! 1%positive
     = Some t'
     /\ shape t' = [1; 3; 1; 2]
     /\ data t' !! 1 = Some float_zero
     /\ data t' !! 0 = Some (Demo.num 1))
  /\ preprocess Demo.ffn_plain 1%positive Demo.batch_heap
     = (1%positive, Demo.batch_heap).
Proof.
  split.
  - destruct (preprocess_masks_nan (T := Demo.runtime) "ResNet50"
                (Some "coco.pth") Demo.ffn_coco 1%positive Demo.batch_heap
                Demo.batch) as [Hmask _];
      [exact init_coco | reflexivity | reflexivity |].
    destruct Hmask as (t' & Ht' & Hshape & _ & Hdata); [discriminate|].
    exists t'. split; [exact Ht'|]. split; [exact Hshape|]. split.
    + apply (Hdata 1 S754_nan); reflexivity.
    + apply (Hdata 0 (Demo.num 1)); reflexivity.
  - apply (preprocess_masks_nan (T := Demo.runtime) "ResNet101" None
             Demo.ffn_plain 1%positive Demo.batch_heap Demo.batch);
      [exact init_plain | reflexivity | reflexivity | reflexivity].
Defined.

Lemma preprocess_in_place_witness :
  (preprocess Demo.ffn_coco 1%positive Demo.batch_heap).1 = 1%positive
  /\ (forward Demo.ffn_coco 1%positive Demo.batch_heap).1.2 !! 1%positive
     <> Some Demo.batch.
Proof.
  destruct (preprocess_in_place (T := Demo.runtime) "ResNet50"
              (Some "coco.pth") Demo.ffn_coco 1%positive Demo.batch_heap
              Demo.batch) as [Href Hheap];
    [exact init_coco | reflexivity |].
  split; [exact Href|].
  destruct Hheap as (_ & _ & _ & Hnan); [discriminate|].
  apply Hnan. apply list_elem_of_lookup. exists 1. reflexivity.
Defined.

Lemma forward_features_witness :
  (forward Demo.ffn_plain 1%positive Demo.batch_heap).2 = Ok Demo.batch
  /\ (forward Demo.ffn_plain 1%positive Demo.batch_heap).1.2
     = Demo.batch_heap.
Proof.
  destruct (forward_features (T := Demo.runtime) "ResNet101" None
              Demo.ffn_plain 1%positive Demo.batch_heap)
    as (m & _ & Hout & Hheap & _); [exact init_plain|].
  split; [|exact Hheap]. reflexivity.
Defined.




(** * Further properties *)

(** ** Filtering as a whole *)

Lemma drop_aux_classifier_lookup (m p : state_dict) (key : string) :
  drop_aux_classifier m p !! key =
  if dict_contains p "aux_classifier.0.weight"
     && negb (dict_contains m "aux_classifier.0.weight")
     && str_contains "aux_classifier" key
  then None else p !! key.
Proof.
  unfold drop_aux_classifier.
  destruct (dict_contains p _ && negb _); simpl; [|done].
  destruct (str_contains "aux_classifier" key) eqn:Hk.
  - apply map_lookup_filter_None. right. intros v _. simpl. by rewrite Hk.
  - destruct (p !! key) as [v|] eqn:Hv.
    + by apply map_lookup_filter_Some.
    + apply map_lookup_filter_None. by left.
Qed.

Lemma drop_aux_classifier_idem (m p : state_dict) :
  drop_aux_classifier m (drop_aux_classifier m p) = drop_aux_classifier m p.
Proof.
  apply drop_aux_classifier_idle.
  destruct (dict_contains m "aux_classifier.0.weight") eqn:Hm.
  - right. by apply dict_contains_true.
  - left. rewrite drop_aux_classifier_lookup, Hm.
    destruct (dict_contains p "aux_classifier.0.weight") eqn:Hp; simpl.
    + reflexivity.
    + by apply dict_contains_false.
Qed.

(** X1. When both dictionaries hold "classifier.4.weight" with a first
    dimension (and the pretrained one holds "classifier.4.bias" if the
    first dimensions differ), filtering returns, and an entry of the
    pretrained dictionary is dropped exactly when the auxiliary step
    fires and the key contains "aux_classifier", or the first dimensions
    differ and the key is "classifier.4.weight" or "classifier.4.bias";
    every other entry is returned with its tensor. *)
Theorem filter_pretrained_dict_lookup (m p : state_dict) (wm wp : tensor)
    (a b : nat) :
  m !! "classifier.4.weight" = Some wm ->
  p !! "classifier.4.weight" = Some wp ->
  shape wm !! 0 = Some a ->
  shape wp !! 0 = Some b ->
  (a <> b -> is_Some (p !! "classifier.4.bias")) ->
  exists r : state_dict,
    filter_pretrained_dict m p = Ok r
    /\ forall key : string,
         r !! key =
         if (dict_contains p "aux_classifier.0.weight"
             && negb (dict_contains m "aux_classifier.0.weight")
             && str_contains "aux_classifier" key)
            || (negb (a =? b)%nat
                && (String.eqb key "classifier.4.weight"
                    || String.eqb key "classifier.4.bias"))
         then None else p !! key.
Proof.
  intros Hm Hp Ha Hb Hbias.
  rewrite filter_pretrained_dict_unfold, Hm, Ha, Hp, Hb.
  destruct (a =? b)%nat eqn:Hab; simpl.
  - eexists. split; [done|]. intros key.
    by rewrite drop_aux_classifier_lookup, orb_false_r.
  - apply Nat.eqb_neq in Hab. destruct (Hbias Hab) as [wb Hwb].
    rewrite Hwb. eexists. split; [done|]. intros key.
    destruct (String.eqb_spec key "classifier.4.weight") as [->|HW].
    { rewrite lookup_delete_ne by done. rewrite lookup_delete_eq.
      by rewrite orb_true_r. }
    destruct (String.eqb_spec key "classifier.4.bias") as [->|HB].
    { rewrite lookup_delete_eq. by rewrite orb_true_r. }
    rewrite !lookup_delete_ne by done.
    by rewrite drop_aux_classifier_lookup, orb_false_r.
Qed.

Lemma filter_pretrained_dict_lookup_witness :
  exists r : state_dict,
    filter_pretrained_dict Demo.model_dict Demo.coco_dict = Ok r
    /\ r !! "aux_classifier.0.weight" = None
    /\ r !! "classifier.4.bias" = None
    /\ r !! "backbone.conv1.weight" = Some Demo.conv_weight.
Proof.
  destruct (filter_pretrained_dict_lookup Demo.model_dict Demo.coco_dict
              Demo.weight2 Demo.weight3 2 3) as (r & Hr & Hkey);
    try reflexivity.
  { intros _. exists Demo.bias3. reflexivity. }
  exists r. split; [exact Hr|].
  split; [|split]; rewrite Hkey; reflexivity.
Defined.

(** X2. Filtering reads two things of the current dictionary and nothing
    else: whether it defines "aux_classifier.0.weight", and the first
    dimension of its "classifier.4.weight".  Two current dictionaries
    that agree on both give the same result, the same exception
    included. *)
Theorem filter_pretrained_dict_model_frame (m1 m2 p : state_dict) :
  (is_Some (m1 !! "aux_classifier.0.weight")
   <-> is_Some (m2 !! "aux_classifier.0.weight")) ->
  (fun w : tensor => shape w !! 0) <$> (m1 !! "classifier.4.weight")
  = (fun w : tensor => shape w !! 0) <$> (m2 !! "classifier.4.weight") ->
  filter_pretrained_dict m1 p = filter_pretrained_dict m2 p.
Proof.
  intros Haux Hdim.
  assert (Hc : dict_contains m1 "aux_classifier.0.weight"
               = dict_contains m2 "aux_classifier.0.weight").
  { unfold dict_contains. by apply bool_decide_ext. }
  assert (Hd : drop_aux_classifier m1 p = drop_aux_classifier m2 p).
  { unfold drop_aux_classifier. by rewrite Hc. }
  rewrite !filter_pretrained_dict_unfold, Hd.
  destruct (m1 !! "classifier.4.weight") as [w1|],
           (m2 !! "classifier.4.weight") as [w2|];
    simpl in Hdim; try discriminate; [|done].
  injection Hdim as Hdim. by rewrite Hdim.
Qed.

Lemma filter_pretrained_dict_model_frame_witness :
  filter_pretrained_dict Demo.model_dict Demo.coco_dict
  = filter_pretrained_dict Demo.stale_dict Demo.coco_dict.
Proof.
  apply filter_pretrained_dict_model_frame.
  - split; intros [v Hv]; discriminate Hv.
  - reflexivity.
Defined.

(** X3. Filtering the result of a filtering again, against the same
    current dictionary: when the first run kept "classifier.4.weight"
    (the first dimensions were equal) the second run returns the same
    dictionary; when the first run removed it, the second run raises
    KeyError on "classifier.4.weight". *)
Theorem filter_pretrained_dict_again (m p r : state_dict) :
  filter_pretrained_dict m p = Ok r ->
  (is_Some (r !! "classifier.4.weight") ->
   filter_pretrained_dict m r = Ok r)
  /\ (r !! "classifier.4.weight" = None ->
      filter_pretrained_dict m r = Raise (KeyError "classifier.4.weight")).
Proof.
  rewrite !filter_pretrained_dict_unfold.
  destruct (m !! "classifier.4.weight") as [wm|] eqn:Hm; [|done].
  destruct (shape wm !! 0) as [a|] eqn:Ha; [|done].
  destruct (p !! "classifier.4.weight") as [wp|] eqn:Hp; [|done].
  destruct (shape wp !! 0) as [b|] eqn:Hb; [|done].
  destruct (a =? b)%nat eqn:Hab.
  - intros [= <-].
    rewrite drop_aux_classifier_lookup_other, Hp, Hb, Hab by reflexivity.
    rewrite drop_aux_classifier_idem. split; [done|]. by intros [=].
  - destruct (p !! "classifier.4.bias") as [wb|]; [|done]. intros [= <-].
    rewrite lookup_delete_ne by done. rewrite lookup_delete_eq.
    split; [by intros [v Hv]|done].
Qed.

Lemma filter_pretrained_dict_again_witness :
  filter_pretrained_dict Demo.model_dict
    (delete "classifier.4.bias"
       (delete "classifier.4.weight"
          (drop_aux_classifier Demo.model_dict Demo.coco_dict)))
  = Raise (KeyError "classifier.4.weight")
  /\ filter_pretrained_dict Demo.model_dict Demo.stale_dict
     = Ok Demo.stale_dict.
Proof.
  split.
  - apply (filter_pretrained_dict_again Demo.model_dict Demo.coco_dict
             _ filter_coco_dict).
    rewrite lookup_delete_ne by done. apply lookup_delete_eq.
  - apply (filter_pretrained_dict_again Demo.model_dict Demo.stale_dict
             _ filter_stale_dict).
    exists Demo.weight2. reflexivity.
Defined.

(** ** The dictionary that is loaded into the model *)

(** X4. [get_model] loads the filtered dictionary laid over the current
    one (line 73).  When the first dimensions of the two final classifier
    weights differ, the loaded dictionary has the current model's own
    "classifier.4.weight" and "classifier.4.bias"; when they are equal it
    has the checkpoint's weight. *)
Theorem merged_final_classifier (m p fd : state_dict) (wm wp : tensor)
    (a b : nat) :
  filter_pretrained_dict m p = Ok fd ->
  m !! "classifier.4.weight" = Some wm ->
  p !! "classifier.4.weight" = Some wp ->
  shape wm !! 0 = Some a ->
  shape wp !! 0 = Some b ->
  (a <> b ->
   (fd ∪ m) !! "classifier.4.weight" = Some wm
   /\ (fd ∪ m) !! "classifier.4.bias" = m !! "classifier.4.bias")
  /\ (a = b -> (fd ∪ m) !! "classifier.4.weight" = Some wp).
Proof.
  intros Hf Hm Hp Ha Hb.
  rewrite filter_pretrained_dict_unfold, Hm, Ha, Hp, Hb in Hf.
  split.
  - intros Hab. apply Nat.eqb_neq in Hab. rewrite Hab in Hf.
    destruct (p !! "classifier.4.bias") as [wb|]; [|done].
    injection Hf as <-. split.
    + rewrite lookup_union_r; [done|].
      rewrite lookup_delete_ne by done. apply lookup_delete_eq.
    + rewrite lookup_union_r; [done|]. apply lookup_delete_eq.
  - intros Hab. apply Nat.eqb_eq in Hab. rewrite Hab in Hf.
    injection Hf as <-. apply lookup_union_Some_l.
    by rewrite drop_aux_classifier_lookup_other.
Qed.

Lemma merged_final_classifier_witness :
  (delete "classifier.4.bias"
     (delete "classifier.4.weight"
        (drop_aux_classifier Demo.model_dict Demo.coco_dict))
   ∪ Demo.model_dict) !! "classifier.4.weight" = Some Demo.weight2
  /\ (Demo.stale_dict ∪ Demo.model_dict) !! "classifier.4.weight"
     = Some Demo.weight2.
Proof.
  split.
  - apply (merged_final_classifier Demo.model_dict Demo.coco_dict _
             Demo.weight2 Demo.weight3 2 3 filter_coco_dict);
      try reflexivity. lia.
  - apply (merged_final_classifier Demo.model_dict Demo.stale_dict _
             Demo.weight2 Demo.weight2 2 2 filter_stale_dict);
      reflexivity.
Defined.

(** X5. When the checkpoint holds "aux_classifier.0.weight" and the
    current dictionary does not, no entry whose key contains
    "aux_classifier" reaches the model from the checkpoint: in the loaded
    dictionary every such key has what the current dictionary has for
    it. *)
Theorem merged_aux_classifier (m p fd : state_dict) (key : string) :
  filter_pretrained_dict m p = Ok fd ->
  is_Some (p !! "aux_classifier.0.weight") ->
  m !! "aux_classifier.0.weight" = None ->
  (exists pre post, key = pre +:+ "aux_classifier" +:+ post) ->
  fd !! key = None /\ (fd ∪ m) !! key = m !! key.
Proof.
  intros Hf Hp Hm Hkey.
  assert (Hd : drop_aux_classifier m p !! key = None).
  { rewrite drop_aux_classifier_lookup.
    apply dict_contains_true in Hp. apply dict_contains_false in Hm.
    apply str_contains_spec in Hkey. by rewrite Hp, Hm, Hkey. }
  assert (Hfd : fd !! key = None).
  { rewrite filter_pretrained_dict_unfold in Hf.
    destruct (m !! "classifier.4.weight") as [wm|]; [|done].
    destruct (shape wm !! 0) as [a|]; [|done].
    destruct (p !! "classifier.4.weight") as [wp|]; [|done].
    destruct (shape wp !! 0) as [b|]; [|done].
    destruct (a =? b)%nat; [by injection Hf as <-|].
    destruct (p !! "classifier.4.bias") as [wb|]; [|done].
    injection Hf as <-.
    apply lookup_delete_None. right. apply lookup_delete_None. by right. }
  split; [done|]. by rewrite lookup_union_r.
Qed.

Lemma merged_aux_classifier_witness :
  (delete "classifier.4.bias"
     (delete "classifier.4.weight"
        (drop_aux_classifier Demo.model_dict Demo.coco_dict))
   ∪ Demo.model_dict) !! "aux_classifier.0.weight" = None.
Proof.
  destruct (merged_aux_classifier Demo.model_dict Demo.coco_dict _
              "aux_classifier.0.weight" filter_coco_dict) as [_ Hmerged].
  - exists Demo.aux_weight. reflexivity.
  - reflexivity.
  - exists "", ".0.weight". reflexivity.
  - rewrite Hmerged. reflexivity.
Defined.

(** ** Preprocessing and the forward pass, further *)

Section Masking.
Context `{T : Torch}.

Lemma nan_to_zero_not_nan (v : spec_float) :
  float_isnan (nan_to_zero v) = false.
Proof. by destruct v. Qed.

Lemma nan_to_zero_idem (xs : list spec_float) :
  nan_to_zero <$> (nan_to_zero <$> xs) = nan_to_zero <$> xs.
Proof.
  rewrite <- list_fmap_compose. apply list_fmap_ext.
  intros i v _. by destruct v.
Qed.

Lemma setitem_mask_idem (t : tensor) :
  setitem_mask (setitem_mask t (isnan t) float_zero)
    (isnan (setitem_mask t (isnan t) float_zero)) float_zero
  = setitem_mask t (isnan t) float_zero.
Proof.
  rewrite !setitem_mask_isnan. simpl. by rewrite nan_to_zero_idem.
Qed.

Lemma preprocess_dangling (self : FFN) (images : loc) (h : heap) :
  h !! images = None -> preprocess self images h = (images, h).
Proof.
  intros Hn. unfold preprocess. destruct (pretrained self); [|done].
  f_equal. apply map_eq. intros j. rewrite lookup_alter.
  case_decide; [|done]. subst j. by rewrite Hn.
Qed.

Lemma preprocess_idem (self : FFN) (images : loc) (h : heap) :
  preprocess self images (preprocess self images h).2
  = preprocess self images h.
Proof.
  destruct (pretrained self) eqn:Hp.
  2:{ by rewrite !(preprocess_plain self images _ Hp). }
  destruct (h !! images) as [t|] eqn:Ht.
  2:{ rewrite (preprocess_dangling self images h Ht). simpl.
      by rewrite (preprocess_dangling self images h Ht). }
  rewrite (preprocess_pretrained self images h t Hp Ht). simpl.
  rewrite (preprocess_pretrained self images _ _ Hp (lookup_insert_eq _ _ _)).
  by rewrite setitem_mask_idem, insert_insert_eq.
Qed.

Lemma Sequential_call_length (mods : list layer) (x : tensor) :
  length (Sequential_call mods x).1 = length mods.
Proof.
  revert x. induction mods as [|l ls IH]; intros x; [done|]. simpl.
  destruct (call l x) as [l' [y|e]]; [|done].
  specialize (IH y). destruct (Sequential_call ls y) as [ls' r].
  simpl in *. by rewrite IH.
Qed.

(** X6. With [pretrained] set, the tensor at the batch reference after
    preprocessing holds no not-a-number value, and it is this tensor on
    which [forward] calls the network. *)
Theorem preprocess_no_nan (self : FFN) (images : loc) (h : heap)
    (t : tensor) :
  pretrained self = true ->
  h !! images = Some t ->
  exists t' : tensor,
    (preprocess self images h).2 !! images = Some t'
    /\ (forall v : spec_float, v ∈ data t' -> float_isnan v = false)
    /\ (forward self images h).2 = (Sequential_call (model self) t').2.
Proof.
  intros Hp Ht. exists (setitem_mask t (isnan t) float_zero).
  rewrite forward_unfold, (preprocess_pretrained self images h t Hp Ht).
  cbn [fst snd]. rewrite lookup_insert_eq. split; [done|]. split.
  - rewrite setitem_mask_isnan. cbn [data]. intros v Hv.
    apply list_elem_of_fmap in Hv as (u & -> & _).
    apply nan_to_zero_not_nan.
  - by rewrite (lookup_total_correct _ _ _ (lookup_insert_eq _ _ _)).
Qed.

(** X7. Preprocessing is idempotent: preprocessing the batch again in the
    heap that a first preprocessing left changes nothing more, whatever
    the module's [pretrained] flag. *)
Theorem preprocess_twice (self : FFN) (images : loc) (h : heap) :
  (preprocess self images (preprocess self images h).2).2
  = (preprocess self images h).2
  /\ (preprocess self images (preprocess self images h).2).1 = images.
Proof. rewrite preprocess_idem. split; [done|]. apply preprocess_fst. Qed.

(** X8. A batch without a not-a-number value is left as it is, also with
    [pretrained] set: the heap after preprocessing, and after [forward],
    is the heap before. *)
Theorem preprocess_clean_batch (self : FFN) (images : loc) (h : heap)
    (t : tensor) :
  h !! images = Some t ->
  S754_nan ∉ data t ->
  (preprocess self images h).2 = h
  /\ (forward self images h).1.2 = h.
Proof.
  intros Ht Hclean.
  assert (Hpre : (preprocess self images h).2 = h).
  { destruct (pretrained self) eqn:Hp.
    - rewrite (preprocess_pretrained self images h t Hp Ht). simpl.
      apply insert_id. rewrite Ht, setitem_mask_isnan. f_equal.
      destruct t as [sh d]. simpl in *. f_equal.
      symmetry. by apply nan_to_zero_id_iff.
    - by rewrite (preprocess_plain self images h Hp). }
  split; [done|]. by rewrite forward_unfold.
Qed.

(** X9. When calling a retained layer leaves that layer as it is, a
    second [forward] on the same batch reference, in the state the first
    one left, returns the same result and leaves the same state; this
    holds with [pretrained] set as well, where the first call has
    overwritten the batch. *)
Theorem forward_twice (self : FFN) (images : loc) (h : heap) :
  (forall (l : layer) (x : tensor), l ∈ model self -> (call l x).1 = l) ->
  (forward self images h).1.1 = self
  /\ forward (forward self images h).1.1 images (forward self images h).1.2
     = forward self images h.
Proof.
  intros Hfix.
  assert (Hself : (forward self images h).1.1 = self).
  { rewrite forward_unfold. simpl.
    rewrite (Sequential_call_fixed _ _ Hfix). by destruct self. }
  split; [done|]. rewrite Hself.
  rewrite (forward_unfold self images h) at 1. simpl.
  rewrite !forward_unfold. by rewrite preprocess_idem.
Qed.

(** X11. A constructed module has [pretrained] set exactly when it has a
    pretrained path, and a network of five stages; [forward] keeps the
    path, the flag and the number of stages, whether it returns or
    raises. *)
Theorem FFN_invariant (name : string) (path : option string) (self : FFN)
    (images : loc) (h : heap) :
  FFN_init name path = Ok self ->
  (pretrained self = true <-> pretrained_path self <> None)
  /\ length (model self) = 5
  /\ pretrained_path (forward self images h).1.1 = pretrained_path self
  /\ pretrained (forward self images h).1.1 = pretrained self
  /\ length (model (forward self images h).1.1) = 5.
Proof.
  intros Hinit.
  apply FFN_init_Ok in Hinit as (_ & Hpath & Hp & m & Hm).
  assert (Hlen : length (model self) = 5) by (by rewrite Hm).
  split; [by rewrite Hp, Hpath, bool_decide_eq_true|].
  split; [done|]. rewrite forward_unfold. simpl.
  by rewrite Sequential_call_length.
Qed.

(** X12. For a supported constructor name and a pretrained path, an
    exception of reading the checkpoint, and an exception of loading the
    merged dictionary into the model, are the exception of
    construction. *)
Theorem FFN_init_checkpoint_errors (name p : string)
    (constructor : bool -> bool -> DeepLabV3 layer) (e : exception) :
  (name = "ResNet50" /\ constructor = deeplabv3_resnet50)
  \/ (name = "ResNet101" /\ constructor = deeplabv3_resnet101) ->
  (torch_load p = Raise e -> FFN_init name (Some p) = Raise e)
  /\ (forall pd fd : state_dict,
        torch_load p = Ok pd ->
        filter_pretrained_dict (state_dict_of (constructor false true)) pd
        = Ok fd ->
        load_state_dict (constructor false true)
          (fd ∪ state_dict_of (constructor false true)) = Raise e ->
        FFN_init name (Some p) = Raise e).
Proof.
  intros Hsel. rewrite (FFN_init_selected name (Some p) constructor Hsel).
  rewrite get_model_Some. split.
  - by intros ->.
  - intros pd fd -> -> ->. done.
Qed.

End Masking.

Lemma preprocess_no_nan_witness :
  exists t' : tensor,
    (preprocess Demo.ffn_coco 1%positive Demo.batch_heap).2 !! 1%positive
    = Some t'
    /\ S754_nan ∉ data t'.
Proof.
  destruct (preprocess_no_nan (T := Demo.runtime) Demo.ffn_coco 1%positive
              Demo.batch_heap Demo.batch) as (t' & Ht' & Hclean & _);
    [reflexivity | reflexivity |].
  exists t'. split; [exact Ht'|].
  intros Hin. apply Hclean in Hin. discriminate Hin.
Defined.

Lemma preprocess_clean_batch_witness :
  (preprocess Demo.ffn_coco 1%positive
     {[ 1%positive := Tensor [1] [Demo.num 1] ]}).2
  = {[ 1%positive := Tensor [1] [Demo.num 1] ]}.
Proof.
  apply (preprocess_clean_batch (T := Demo.runtime) Demo.ffn_coco 1%positive
           {[ 1%positive := Tensor [1] [Demo.num 1] ]}
           (Tensor [1] [Demo.num 1])).
  - reflexivity.
  - apply not_elem_of_cons. split; [discriminate | apply not_elem_of_nil].
Defined.

Lemma forward_twice_witness :
  forward (forward Demo.ffn_coco 1%positive Demo.batch_heap).1.1 1%positive
    (forward Demo.ffn_coco 1%positive Demo.batch_heap).1.2
  = forward Demo.ffn_coco 1%positive Demo.batch_heap.
Proof.
  apply (forward_twice (T := Demo.runtime) Demo.ffn_coco 1%positive
           Demo.batch_heap).
  intros l x _. reflexivity.
Defined.

Lemma FFN_invariant_witness :
  (pretrained Demo.ffn_coco = true <-> pretrained_path Demo.ffn_coco <> None)
  /\ length (model (forward Demo.ffn_coco 1%positive Demo.batch_heap).1.1)
     = 5.
Proof.
  destruct (FFN_invariant (T := Demo.runtime) "ResNet50" (Some "coco.pth")
              Demo.ffn_coco 1%positive Demo.batch_heap init_coco)
    as (Hflag & _ & _ & _ & Hlen).
  split; [exact Hflag | exact Hlen].
Defined.

Lemma FFN_init_checkpoint_errors_witness :
  FFN_init (T := Demo.runtime) "ResNet50" (Some "missing.pth")
  = Raise (RuntimeError "No such file or directory")
  /\ FFN_init (T := Demo.rejecting) "ResNet50" (Some "coco.pth")
     = Raise (RuntimeError "Error(s) in loading state_dict").
Proof.
  split.
  - apply (FFN_init_checkpoint_errors (T := Demo.runtime) "ResNet50"
             "missing.pth" (deeplabv3_resnet50 (Torch := Demo.runtime))).
    + left. split; reflexivity.
    + reflexivity.
  - destruct (FFN_init_checkpoint_errors (T := Demo.rejecting) "ResNet50"
                "coco.pth" (deeplabv3_resnet50 (Torch := Demo.rejecting))
                (RuntimeError "Error(s) in loading state_dict")
                (or_introl (conj eq_refl eq_refl))) as [_ Hload].
    apply (Hload Demo.coco_dict
             (delete "classifier.4.bias"
                (delete "classifier.4.weight"
                   (drop_aux_classifier Demo.model_dict Demo.coco_dict)))).
    + reflexivity.
    + exact filter_coco_dict.
    + reflexivity.
Defined.
